(* ===== verification/_CoqProject ===== *)
-Q . S2P
Prelude.v
Pieces.v
Board.v
Checkers.v
Chess.v
Render.v
Main.v
