(* ===== verification/Prelude.v ===== *)
(** * Verification of [gameboard1.py]: board set-up and console rendering

    The program (src/デザインパターン/gameboard1.py, one file) prints the initial
    layout of a checkers board and of a chess board.  Its parts and how
    they interact: [main] constructs a [CheckersBoard] and a [ChessBoard];
    each constructor runs [AbstractBoard.__init__], which allocates the
    grid and calls the subclass's [populate_board], whose assignments store
    the strings returned by the piece classes; [print] calls
    [AbstractBoard.__str__], which renders every cell with [console]; on
    Windows the output goes to an [io.StringIO] and is then written to a
    file.

    Files, in dependency order (each opens with its own summary):
    - [Prelude.v] (this file): Python's exceptions ([exn]), the statement
      monad [PyM] (state and exception) with notation in [py_scope],
      the equivalence [≡] on statements with [Proper] instances for
      setoid rewriting, the [for] statement [for_], [range] with one and
      three arguments, list and string lemmas, the rewrite database [pyrw]
      and the tactic [fold_pym_equiv].
    - [Pieces.v], Module [Pieces] (lines 19-174): each piece class is the
      string its [__new__] returns (a Definition named after the class);
      [piece_class] and [new] are the classes and the call [cls()]; the
      spec's (colour, kind) glyph table is [glyph].
    - [Board.v], Module [Board] (lines 177-185): the grid
      [list (list (option string))], [new_board] (the list comprehension),
      [board_setitem] (the statement [self.board[r][c] = v], raising
      [IndexError] on either index), [AbstractBoard_init] ([__init__],
      dispatching to the class's [populate_board]); the theory of sequences
      of writes, and the type class [Populator], the contract a subclass's
      [populate_board] meets.  [__init__] is proved against the class, the
      subclasses discharge it.
    - [Checkers.v], Module [Checkers] (lines 197-208) and [Chess.v],
      Module [Chess] (lines 210-239): each [populate_board] as written
      (loops over [range], literal assignments), proved equivalent to its
      list of writes and an instance of [Populator]; the spec's layouts
      [checkers_layout] and [chess_layout].
    - [Render.v], Module [Render] (lines 6-16, 187-194): [console] for both
      platforms, selected by [sys.platform] as a string, and [__str__]
      ([board_str]); the token view of a rendering, a decoder [decode] and
      the escape stripper [strip_sgr].
    - [Main.v], Module [Main] (lines 9-12, 242-259): the I/O state [io]
      ([sys.stdout] bound to the real stream or a [StringIO], the real
      standard output, the files as a [gmap]), text-mode newline
      translation ([translate_newlines] with [os_linesep]), the
      import-time replacement of [sys.stdout], [main] and [program].

    What the theorems show (claims C1-C16 of the manifest):
    - construction: [CheckersBoard()] and [ChessBoard()] succeed and build
      exactly the spec's layouts (C1, C3); [__init__] is correct for any
      class meeting the [Populator] contract (C2); the population fits a
      board exactly when it is at least 10 x 10 (checkers, C6) or 8 x 8
      (chess, C11), and raises [IndexError] otherwise; the order of the
      checkers assignments does not matter (C10); the bare [AbstractBoard]
      raises [NotImplementedError] (C16);
    - pieces: each call returns the glyph of the spec's table (C12);
    - rendering: the coloured output decodes back to every glyph, colour
      and row break (C4); the Windows output is the coloured one with the
      escapes removed (C9); backgrounds alternate (C14); every checkers man
      is drawn on the [BLACK] shade (C13);
    - the program: the whole run on each platform (C7, C8); the file a
      Windows run writes is the stripped output of a POSIX run with its
      newlines written as CRLF (C5);
    - divergence from the spec: the opening escape lacks the "[" of an
      ANSI sequence (C15).

    Fuel and bounds.  [lex] takes fuel bounding the number of tokens it
    reads; [decode] gives it [String.length s + 1], which is enough because
    every token occupies at least one byte ([unlex_length]), and the round
    trip is proved for this decoder, not under an assumption that it
    returns.  [range(start, stop, step)] is computed with CPython's length
    formula, without fuel.

    Modelling choices.  Indices are [nat]: every index of the program comes
    from [range] and [+] on non-negative numbers, so Python's negative
    indices never occur.  Strings are [String.string] holding the UTF-8
    bytes of the text (["●"] is three bytes); the program only
    concatenates and compares them, so UTF-8 encoding leaves the bytes of
    the model as they are.  Newlines are not left as they are: a text-mode
    stream with the default [newline=None] (the file of [open(..., 'w')],
    and [sys.__stdout__]) writes each ["\n"] as [os.linesep], which is
    CRLF on Windows; an [io.StringIO] does not translate.  The grid's rows
    are distinct lists (the comprehension builds a fresh list per row), so
    a value per row models them faithfully.

    Not modelled: the Python runtime and standard library the program only
    calls ([print]'s buffering, [io.StringIO] beyond its contents,
    [tempfile.gettempdir] and [os.path.join], which are section variables
    of [Main.v], and I/O errors on the file write, which the program does
    not handle).

    Plan for later work: state the exact row strings of both renderings; model the aliasing of [sys.stdout] and
    [sys.__stdout__] as one store if further properties of [main] need
    it; prove the decoder's output determines the board up to empty
    cells.
*)

From Stdlib Require Import String Arith Lia ZifyNat.
From stdpp Require Import base list decidable.

(** ** Python exceptions and the statement monad *)

Inductive exn : Type :=
  | IndexError
  | NotImplementedError
  | ValueError
  | AttributeError.

#[export] Instance exn_eq_dec : EqDecision exn.
Proof. solve_decision. Defined.

(** The outcome of running a statement: a value or a raised exception. *)
Inductive outcome (A : Type) : Type :=
  | Ok (a : A)
  | Raise (e : exn).
Arguments Ok {A} a.
Arguments Raise {A} e.

(** A statement over a state [S] returning [A], which may raise. *)
Definition PyM (S A : Type) : Type := S -> outcome (A * S).

Definition ret {S A} (a : A) : PyM S A := fun s => Ok (a, s).

Definition bind {S A B} (m : PyM S A) (k : A -> PyM S B) : PyM S B :=
  fun s => match m s with
           | Ok (a, s') => k a s'
           | Raise e => Raise e
           end.

Definition raise {S A} (e : exn) : PyM S A := fun _ => Raise e.

Declare Scope py_scope.
Delimit Scope py_scope with py.
Notation "x <- m ;; k" := (bind m (fun x => k))
  (at level 100, m at next level, right associativity) : py_scope.
Notation "m ;; k" := (bind m (fun _ => k))
  (at level 100, right associativity) : py_scope.
Open Scope py_scope.

(** Python's [for x in xs: body]: the body runs for each element in order
    and an exception ends the loop. *)
Fixpoint for_ {S X} (xs : list X) (body : X -> PyM S unit) : PyM S unit :=
  match xs with
  | [] => ret tt
  | x :: xs' => body x ;; for_ xs' body
  end.

(** [range(n)]. *)
Definition py_range (n : nat) : list nat := seq 0 n.

(** The elements of [range(start, stop, step)] for [step > 0]: CPython
    computes the length [(stop - start - 1) // step + 1] (or 0 when
    [start >= stop]) and the [i]-th element [start + i * step]. *)
Definition range_len (start stop step : nat) : nat :=
  if start <? stop then (stop - start - 1) / step + 1 else 0.

Definition range_step (start stop step : nat) : list nat :=
  map (fun i => start + i * step) (seq 0 (range_len start stop step)).

(** [range(start, stop, step)] as an expression: [step == 0] raises
    [ValueError]. *)
Definition py_range3 {S} (start stop step : nat) : PyM S (list nat) :=
  if decide (step = 0) then raise ValueError
  else ret (range_step start stop step).

(** ** Equivalence of statements

    Two statements are equivalent when they agree on every state.  This is
    coarser than Leibniz equality of functions; it is the relation the
    loop lemmas are stated in, and [bind] and [for_] respect it. *)
#[export] Instance pym_equiv {S A} : Equiv (PyM S A) :=
  fun m1 m2 => forall s, m1 s = m2 s.

#[export] Instance pym_equivalence {S A} : Equivalence (≡@{PyM S A}).
Proof.
  split.
  - intros m s. reflexivity.
  - intros m1 m2 H s. by rewrite H.
  - intros m1 m2 m3 H1 H2 s. by rewrite H1, H2.
Qed.

#[export] Instance bind_proper {S A B} :
  Proper ((≡) ==> pointwise_relation A (≡) ==> (≡)) (@bind S A B).
Proof.
  intros m1 m2 Hm k1 k2 Hk s. unfold bind. rewrite Hm.
  destruct (m2 s) as [[a s']|e]; [apply Hk | reflexivity].
Qed.

#[export] Instance for_proper {S X} (xs : list X) :
  Proper (pointwise_relation X (≡) ==> (≡)) (@for_ S X xs).
Proof.
  intros b1 b2 Hb. induction xs as [|x xs IH]; simpl; [reflexivity|].
  apply bind_proper; [apply Hb | intros []; apply IH].
Qed.

(** ** Monad laws *)

Lemma bind_ret_l {S A B} (a : A) (k : A -> PyM S B) :
  bind (ret a) k ≡ k a.
Proof. intros s. reflexivity. Qed.

Lemma bind_ret_r {S A} (m : PyM S A) : bind m ret ≡ m.
Proof. intros s. unfold bind. by destruct (m s) as [[a s']|e]. Qed.

Lemma bind_ret_unit {S} (m : PyM S unit) : (m ;; ret tt) ≡ m.
Proof. intros s. unfold bind. by destruct (m s) as [[[] s']|e]. Qed.

Lemma bind_assoc {S A B C} (m : PyM S A) (k : A -> PyM S B) (h : B -> PyM S C) :
  bind (bind m k) h ≡ bind m (fun a => bind (k a) h).
Proof. intros s. unfold bind. by destruct (m s) as [[a s']|e]. Qed.

Lemma bind_raise {S A B} (e : exn) (k : A -> PyM S B) :
  bind (raise e) k ≡ raise e.
Proof. intros s. reflexivity. Qed.

(** A loop over a concatenation is the two loops in sequence. *)
Lemma for_app {S X} (xs ys : list X) (body : X -> PyM S unit) :
  for_ (xs ++ ys) body ≡ (for_ xs body ;; for_ ys body).
Proof.
  induction xs as [|x xs IH]; simpl.
  - rewrite bind_ret_l. reflexivity.
  - rewrite bind_assoc. apply bind_proper; [reflexivity|]. intros []. apply IH.
Qed.

(** Nested loops are one loop over the flattened list of iterations. *)
Lemma for_flat_map {S X Y} (xs : list X) (f : X -> list Y) (body : Y -> PyM S unit) :
  for_ xs (fun x => for_ (f x) body) ≡ for_ (flat_map f xs) body.
Proof.
  induction xs as [|x xs IH]; simpl; [reflexivity|].
  rewrite for_app. apply bind_proper; [reflexivity|]. intros []. apply IH.
Qed.

Lemma for_map {S X Y} (xs : list X) (f : X -> Y) (body : Y -> PyM S unit) :
  for_ (map f xs) body ≡ for_ xs (fun x => body (f x)).
Proof.
  induction xs as [|x xs IH]; simpl; [reflexivity|].
  apply bind_proper; [reflexivity|]. intros []. apply IH.
Qed.

(** ** Python [range] *)

Lemma elem_of_py_range (n x : nat) : x ∈ py_range n <-> x < n.
Proof. unfold py_range. rewrite elem_of_seq. lia. Qed.

(** [range(start, stop, step)] holds exactly the numbers of
    [[start, stop)] that are [start] plus a multiple of [step]. *)
Lemma elem_of_range_step (start stop step x : nat) :
  step <> 0 ->
  x ∈ range_step start stop step <->
  start <= x < stop /\ (x - start) mod step = 0.
Proof.
  intros Hs. unfold range_step, range_len.
  rewrite list_elem_of_fmap. setoid_rewrite elem_of_seq.
  destruct (Nat.ltb_spec start stop) as [Hlt|Hge].
  - split.
    + intros (i & -> & _ & Hi).
      assert (i <= (stop - start - 1) / step) as Hi' by lia.
      pose proof (Nat.Div0.mul_div_le (stop - start - 1) step).
      assert (i * step <= stop - start - 1) by nia.
      split; [lia|]. replace (start + i * step - start) with (i * step) by lia.
      apply Nat.Div0.mod_mul.
    + intros [[Hlo Hhi] Hm]. exists ((x - start) / step).
      pose proof (Nat.div_mod_eq (x - start) step) as Hd.
      split; [lia|]. split; [lia|].
      assert ((x - start) / step <= (stop - start - 1) / step); [|lia].
      apply Nat.Div0.div_le_mono. lia.
  - split; [intros (i & _ & _ & Hi); lia | lia].
Qed.

Lemma py_range3_ok {S} (start stop step : nat) (s : S) :
  step <> 0 -> py_range3 start stop step s = Ok (range_step start stop step, s).
Proof. intros Hs. unfold py_range3. by rewrite decide_False. Qed.

(** ** Lists *)

Lemma Forall_imap {A B} (P : B -> Prop) (f : nat -> A -> B) (l : list A) :
  (forall i x, l !! i = Some x -> P (f i x)) -> Forall P (imap f l).
Proof.
  intros H. apply Forall_lookup_2. intros i y Hy.
  rewrite list_lookup_imap in Hy. destruct (l !! i) eqn:E; simplify_eq/=. eauto.
Qed.

Lemma map_imap {A B C} (f : B -> C) (h : nat -> A -> B) (l : list A) :
  map f (imap h l) = imap (fun i x => f (h i x)) l.
Proof. apply fmap_imap. Qed.

(** ** Strings

    [String.append] and [String.concat ""] ([str.join] with the empty
    separator) as a monoid: the lemmas the renderer's proofs rewrite with. *)

Lemma string_app_nil_l (s : string) : ("" ++ s)%string = s.
Proof. reflexivity. Qed.

Lemma string_app_String (a : Ascii.ascii) (s1 s2 : string) :
  (String a s1 ++ s2)%string = String a (s1 ++ s2).
Proof. reflexivity. Qed.

Lemma string_app_nil_r (s : string) : (s ++ "")%string = s.
Proof. induction s as [|a s IH]; simpl; [done | by rewrite IH]. Qed.

Lemma string_app_assoc (s1 s2 s3 : string) :
  (s1 ++ (s2 ++ s3))%string = ((s1 ++ s2) ++ s3)%string.
Proof. induction s1 as [|a s1 IH]; simpl; [done | by rewrite IH]. Qed.

Lemma string_concat_cons (x : string) (l : list string) :
  String.concat "" (x :: l) = (x ++ String.concat "" l)%string.
Proof. destruct l; simpl; [by rewrite string_app_nil_r | done]. Qed.

Lemma string_concat_app (l1 l2 : list string) :
  String.concat "" (l1 ++ l2) = (String.concat "" l1 ++ String.concat "" l2)%string.
Proof.
  induction l1 as [|x l1 IH]; [done|].
  rewrite <- app_comm_cons, !string_concat_cons, IH. apply string_app_assoc.
Qed.

Lemma string_length_app (s1 s2 : string) :
  String.length (s1 ++ s2) = String.length s1 + String.length s2.
Proof. induction s1 as [|a s1 IH]; simpl; [done | by rewrite IH]. Qed.

(** ** Rewrite database

    [pyrw] evaluates [range(start, stop, step)] with a non-zero step and
    normalises string appends (right-nested, with literals pushed through
    [String]) so that a rendered square can be matched character by
    character. *)
Create Rewrite HintDb pyrw.
#[export] Hint Rewrite @py_range3_ok using lia : pyrw.
#[export] Hint Rewrite string_app_nil_l string_app_String string_app_nil_r string_concat_cons string_concat_app
  string_length_app : pyrw.
#[export] Hint Rewrite <- string_app_assoc : pyrw.


(** Turn a goal [forall s, m1 s = m2 s] back into [m1 ≡ m2], so that the
    loop lemmas can rewrite it. *)
Ltac fold_pym_equiv :=
  match goal with
  | |- forall s, ?m1 s = ?m2 s => change (m1 ≡ m2)
  end.
