(* ===== verification/Pieces.v ===== *)
(** * The piece catalog (gameboard1.py, lines 19-174)

    Each piece class derives from [Piece], itself a [str] subclass with
    empty [__slots__].  Every [__new__] first builds an instance with
    [super().__new__(cls)] and then rebinds [self] to a string literal and
    returns that: a call such as [BlackDraught()] evaluates to the plain
    [str] ["●"], not to a [BlackDraught] instance.  So the model of each
    class is the string its call returns, a Definition with the class's
    name; [piece_class] lists the classes and [new] is the call [cls()].

    The spec describes a piece as a (colour, kind) pair with a glyph table;
    [piece_color], [piece_kind] and [glyph] state that abstract catalog, and
    the theorem [new_refines_glyph] shows that [new] implements it. *)

From stdpp Require Import base list decidable strings.
From Stdlib Require Import String.
From S2P Require Import Prelude.

Module Pieces.

Local Open Scope string_scope.

(** ** The classes and what their calls return *)

Definition BlackDraught : string := "●".
Definition WhiteDraught : string := "○".
Definition BlackChessKing : string := "(BK)".
Definition WhiteChessKing : string := "(WK)".
Definition BlackChessQueen : string := "(BQ)".
Definition WhiteChessQueen : string := "(WQ)".
Definition BlackChessRook : string := "(BR)".
Definition WhiteChessRook : string := "(WR)".
Definition BlackChessBishop : string := "(BB)".
Definition WhiteChessBishop : string := "(WB)".
Definition BlackChessKnight : string := "(BKN)".
Definition WhiteChessKnight : string := "(WKN)".
Definition BlackChessPawn : string := "(BP)".
Definition WhiteChessPawn : string := "(WP)".

Inductive piece_class : Type :=
  | C_BlackDraught | C_WhiteDraught
  | C_BlackChessKing | C_WhiteChessKing
  | C_BlackChessQueen | C_WhiteChessQueen
  | C_BlackChessRook | C_WhiteChessRook
  | C_BlackChessBishop | C_WhiteChessBishop
  | C_BlackChessKnight | C_WhiteChessKnight
  | C_BlackChessPawn | C_WhiteChessPawn.

#[export] Instance piece_class_eq_dec : EqDecision piece_class.
Proof. solve_decision. Defined.

(** [cls()]: the value the class's [__new__] returns. *)
Definition new (c : piece_class) : string :=
  match c with
  | C_BlackDraught => BlackDraught
  | C_WhiteDraught => WhiteDraught
  | C_BlackChessKing => BlackChessKing
  | C_WhiteChessKing => WhiteChessKing
  | C_BlackChessQueen => BlackChessQueen
  | C_WhiteChessQueen => WhiteChessQueen
  | C_BlackChessRook => BlackChessRook
  | C_WhiteChessRook => WhiteChessRook
  | C_BlackChessBishop => BlackChessBishop
  | C_WhiteChessBishop => WhiteChessBishop
  | C_BlackChessKnight => BlackChessKnight
  | C_WhiteChessKnight => WhiteChessKnight
  | C_BlackChessPawn => BlackChessPawn
  | C_WhiteChessPawn => WhiteChessPawn
  end.

(** ** The abstract catalog of the spec: colour, kind, glyph table *)

Inductive color : Type := Black | White.
Inductive kind : Type := Draught | King | Queen | Rook | Bishop | Knight | Pawn.

#[export] Instance color_eq_dec : EqDecision color.
Proof. solve_decision. Defined.
#[export] Instance kind_eq_dec : EqDecision kind.
Proof. solve_decision. Defined.

Definition piece_color (c : piece_class) : color :=
  match c with
  | C_BlackDraught | C_BlackChessKing | C_BlackChessQueen | C_BlackChessRook
  | C_BlackChessBishop | C_BlackChessKnight | C_BlackChessPawn => Black
  | _ => White
  end.

Definition piece_kind (c : piece_class) : kind :=
  match c with
  | C_BlackDraught | C_WhiteDraught => Draught
  | C_BlackChessKing | C_WhiteChessKing => King
  | C_BlackChessQueen | C_WhiteChessQueen => Queen
  | C_BlackChessRook | C_WhiteChessRook => Rook
  | C_BlackChessBishop | C_WhiteChessBishop => Bishop
  | C_BlackChessKnight | C_WhiteChessKnight => Knight
  | C_BlackChessPawn | C_WhiteChessPawn => Pawn
  end.

(** The glyph table of the spec (section 4.1). *)
Definition glyph (col : color) (k : kind) : string :=
  match col, k with
  | Black, Draught => "●"     | White, Draught => "○"
  | Black, King => "(BK)"     | White, King => "(WK)"
  | Black, Queen => "(BQ)"    | White, Queen => "(WQ)"
  | Black, Rook => "(BR)"     | White, Rook => "(WR)"
  | Black, Bishop => "(BB)"   | White, Bishop => "(WB)"
  | Black, Knight => "(BKN)"  | White, Knight => "(WKN)"
  | Black, Pawn => "(BP)"     | White, Pawn => "(WP)"
  end.

(** ** Properties of the catalog *)

(** C12: the calls implement the spec's catalog: the string returned by
    each class's call is the glyph the table gives for its colour and kind. *)
Theorem new_refines_glyph (c : piece_class) :
  new c = glyph (piece_color c) (piece_kind c).
Proof. by destruct c. Qed.

End Pieces.
