(* ===== verification/Board.v ===== *)
(** * The abstract board (gameboard1.py, lines 177-185)

    [AbstractBoard.__init__(rows, columns)] stores in [self.board] a list
    of [rows] fresh lists of [columns] [None]s, then calls the hook
    [self.populate_board()]; the base class's hook raises
    [NotImplementedError].  Subclasses fill the board with statements
    [self.board[r][c] = v].

    The model: a cell is [option string] ([None] or the [str] a piece
    class returns), the board is [grid], [board_setitem] is the assignment
    statement in the statement monad of the prelude (the first subscript
    raises [IndexError] when [r] is out of range, the assignment when [c]
    is), a class is the record of its [populate_board] method, and
    [AbstractBoard_init] is [__init__] dispatching to it.

    The theory: running a list of writes ([exec_writes]) on a rectangular
    board succeeds exactly when every write is in bounds, keeps the shape,
    and leaves in each cell the last value written there; writes to
    distinct cells commute, so their order does not matter.  The class
    [Populator] is the contract a subclass's [populate_board] meets, and
    [init_spec] proves [__init__] correct against it. *)

From Stdlib Require Import String Lia Permutation.
From stdpp Require Import base list decidable strings.
From S2P Require Import Prelude Pieces.

Module Board.

(** ** Data and operations *)

Abbreviation cell := (option string).
Abbreviation grid := (list (list cell)).

(** [[[None for _ in range(columns)] for _ in range(rows)]]: every row is
    a list of its own, so the rows share nothing. *)
Definition new_board (rows columns : nat) : grid :=
  map (fun _ => map (fun _ => None) (py_range columns)) (py_range rows).

(** [self.board[r][c] = v]. *)
Definition board_setitem (r c : nat) (v : string) : PyM grid unit :=
  fun g =>
    match g !! r with
    | None => Raise IndexError
    | Some row =>
        if decide (c < length row)
        then Ok (tt, <[r := <[c := Some v]> row]> g)
        else Raise IndexError
    end.

(** A board class, by the method the subclasses override. *)
Record board_class : Type := { populate_board : PyM grid unit }.

(** [AbstractBoard.populate_board]: [raise NotImplementedError]. *)
Definition AbstractBoard_populate_board : PyM grid unit := raise NotImplementedError.

Definition AbstractBoard : board_class :=
  {| populate_board := AbstractBoard_populate_board |}.

(** [AbstractBoard.__init__(self, rows, columns)] for an object of class
    [cls]: allocate, then run the class's [populate_board]. *)
Definition AbstractBoard_init (cls : board_class) (rows columns : nat) : outcome grid :=
  match populate_board cls (new_board rows columns) with
  | Ok (_, g) => Ok g
  | Raise e => Raise e
  end.

(** ** Vocabulary of the specification *)

(** The cell at row [r], column [c], when both are in range. *)
Definition cell_at (g : grid) (r c : nat) : option cell := g !! r ≫= fun row => row !! c.

(** A board of [rows] rows of [columns] cells each. *)
Definition shape (rows columns : nat) (g : grid) : Prop :=
  length g = rows /\ Forall (fun row => length row = columns) g.

(** One statement [self.board[r][c] = v] of a population sequence. *)
Definition write : Type := (nat * nat * string)%type.

Definition wpos (w : write) : nat * nat := (w.1.1, w.1.2).

Definition exec_writes (ws : list write) : PyM grid unit :=
  for_ ws (fun w => board_setitem w.1.1 w.1.2 w.2).

Definition in_bounds (rows columns : nat) (w : write) : Prop :=
  w.1.1 < rows /\ w.1.2 < columns.

#[export] Instance in_bounds_dec rows columns w : Decision (in_bounds rows columns w).
Proof. unfold in_bounds. apply _. Defined.

(** The value of the last write to [(r, c)], if any. *)
Fixpoint last_write (ws : list write) (r c : nat) : option string :=
  match ws with
  | [] => None
  | w :: ws' =>
      match last_write ws' r c with
      | Some v => Some v
      | None => if decide (wpos w = (r, c)) then Some w.2 else None
      end
  end.

(** ** Allocation *)

Lemma new_board_shape (rows columns : nat) : shape rows columns (new_board rows columns).
Proof.
  unfold new_board, shape, py_range. rewrite length_map, length_seq.
  split; [done|]. apply Forall_forall. intros row Hrow.
  apply list_elem_of_fmap in Hrow as (_ & -> & _). by rewrite length_map, length_seq.
Qed.

Lemma new_board_cell (rows columns r c : nat) :
  cell_at (new_board rows columns) r c =
  if decide (r < rows /\ c < columns) then Some None else None.
Proof.
  unfold cell_at, new_board, py_range.
  rewrite list_lookup_fmap.
  destruct (decide (r < rows)) as [Hr|Hr].
  - rewrite lookup_seq_lt by done. simpl. rewrite list_lookup_fmap.
    destruct (decide (c < columns)) as [Hc|Hc].
    + rewrite lookup_seq_lt by done. rewrite decide_True by lia. done.
    + rewrite lookup_seq_ge by lia. rewrite decide_False by lia. done.
  - rewrite lookup_seq_ge by lia. rewrite decide_False by lia. done.
Qed.

(** ** One assignment *)

Lemma shape_lookup (rows columns r : nat) (g : grid) :
  shape rows columns g -> r < rows -> exists row, g !! r = Some row /\ length row = columns.
Proof.
  intros [Hlen Hrows] Hr. destruct (lookup_lt_is_Some_2 g r) as [row Hrow]; [lia|].
  exists row. split; [done|]. by eapply (Forall_lookup_1 _ _ _ _ Hrows).
Qed.

Lemma board_setitem_ok (rows columns r c : nat) (v : string) (g : grid) :
  shape rows columns g -> r < rows -> c < columns ->
  exists g', board_setitem r c v g = Ok (tt, g') /\ shape rows columns g' /\
    forall r' c', cell_at g' r' c' =
      if decide ((r, c) = (r', c')) then Some (Some v) else cell_at g r' c'.
Proof.
  intros Hs Hr Hc. destruct (shape_lookup _ _ _ _ Hs Hr) as (row & Hrow & Hlen).
  unfold board_setitem. rewrite Hrow, decide_True by lia.
  eexists. split; [done|]. destruct Hs as [Hg Hall]. split.
  - split; [by rewrite length_insert|]. apply Forall_insert; [done|].
    by rewrite length_insert.
  - intros r' c'. unfold cell_at.
    destruct (decide (r = r')) as [<-|Hne].
    + rewrite list_lookup_insert_eq by lia. rewrite Hrow. simpl.
      destruct (decide (c = c')) as [<-|Hne'].
      * rewrite decide_True by done. apply list_lookup_insert_eq. lia.
      * rewrite decide_False by congruence. by apply list_lookup_insert_ne.
    + rewrite decide_False by congruence. by rewrite list_lookup_insert_ne.
Qed.

Lemma board_setitem_oob (rows columns r c : nat) (v : string) (g : grid) :
  shape rows columns g -> ~ (r < rows /\ c < columns) ->
  board_setitem r c v g = Raise IndexError.
Proof.
  intros Hs Hout. unfold board_setitem.
  destruct (decide (r < rows)) as [Hr|Hr].
  - destruct (shape_lookup _ _ _ _ Hs Hr) as (row & -> & Hlen).
    rewrite decide_False by lia. done.
  - destruct Hs as [Hg _]. rewrite lookup_ge_None_2 by lia. done.
Qed.

(** ** Sequences of writes *)

Lemma exec_writes_cons (w : write) (ws : list write) :
  exec_writes (w :: ws) = (board_setitem w.1.1 w.1.2 w.2 ;; exec_writes ws).
Proof. reflexivity. Qed.

Lemma exec_writes_app (ws1 ws2 : list write) :
  exec_writes (ws1 ++ ws2) ≡ (exec_writes ws1 ;; exec_writes ws2).
Proof. apply for_app. Qed.

(** On a rectangular board, a sequence of in-bounds writes succeeds, keeps
    the shape, and leaves in each cell its last written value. *)
Lemma exec_writes_ok (rows columns : nat) (ws : list write) (g : grid) :
  shape rows columns g -> Forall (in_bounds rows columns) ws ->
  exists g', exec_writes ws g = Ok (tt, g') /\ shape rows columns g' /\
    forall r c, cell_at g' r c =
      match last_write ws r c with Some v => Some (Some v) | None => cell_at g r c end.
Proof.
  revert g. induction ws as [|w ws IH]; intros g Hs Hb.
  - exists g. split; [done|]. split; [done|]. done.
  - apply Forall_cons in Hb as [[Hr Hc] Hb].
    destruct (board_setitem_ok _ _ _ _ w.2 _ Hs Hr Hc) as (g1 & Hg1 & Hs1 & Hcell1).
    destruct (IH g1 Hs1 Hb) as (g' & Hg' & Hs' & Hcell').
    exists g'. rewrite exec_writes_cons. unfold bind. rewrite Hg1.
    split; [done|]. split; [done|]. intros r c. rewrite Hcell', Hcell1. simpl.
    unfold wpos. destruct (last_write ws r c); [done|].
    by destruct (decide ((w.1.1, w.1.2) = (r, c))).
Qed.

(** A write out of bounds raises [IndexError], and the sequence stops. *)
Lemma exec_writes_oob (rows columns : nat) (ws : list write) (g : grid) :
  shape rows columns g -> ~ Forall (in_bounds rows columns) ws ->
  exec_writes ws g = Raise IndexError.
Proof.
  revert g. induction ws as [|w ws IH]; intros g Hs Hb; [by destruct Hb|].
  rewrite exec_writes_cons. unfold bind.
  destruct (decide (in_bounds rows columns w)) as [[Hr Hc]|Hw].
  - destruct (board_setitem_ok _ _ _ _ w.2 _ Hs Hr Hc) as (g1 & -> & Hs1 & _).
    apply IH; [done|]. intros Hall. by apply Hb, Forall_cons.
  - by rewrite (board_setitem_oob rows columns).
Qed.

Lemma last_write_None (ws : list write) (r c : nat) :
  last_write ws r c = None <-> Forall (fun w => wpos w <> (r, c)) ws.
Proof.
  induction ws as [|w ws IH]; simpl; [split; auto|].
  rewrite Forall_cons, <- IH. destruct (last_write ws r c); [naive_solver|].
  case_decide; naive_solver.
Qed.

Lemma last_write_In (ws : list write) (r c : nat) (v : string) :
  last_write ws r c = Some v -> In (r, c, v) ws.
Proof.
  induction ws as [|[[r' c'] v'] ws IH]; simpl; [done|].
  destruct (last_write ws r c); [naive_solver|].
  unfold wpos. simpl. case_decide; naive_solver.
Qed.

(** When every cell is written at most once, the last write to a cell is
    its only write. *)
Lemma last_write_NoDup (ws : list write) (r c : nat) (v : string) :
  NoDup (map wpos ws) -> last_write ws r c = Some v <-> In (r, c, v) ws.
Proof.
  intros Hnd. split; [apply last_write_In|].
  induction ws as [|w ws IH]; simpl; [done|].
  apply NoDup_cons in Hnd as [Hw Hnd]. intros [->|Hin].
  - assert (last_write ws r c = None) as ->.
    { apply last_write_None, Forall_forall. intros w' Hw' Heq. apply Hw.
      apply (list_elem_of_fmap wpos). exists w'. by split. }
    by rewrite decide_True.
  - by rewrite IH.
Qed.

Lemma last_write_out (rows columns r c : nat) (ws : list write) :
  Forall (in_bounds rows columns) ws -> ~ (r < rows /\ c < columns) ->
  last_write ws r c = None.
Proof.
  intros Hb Hout. apply last_write_None. eapply Forall_impl; [exact Hb|].
  intros [[r' c'] v] [Hr Hc] Heq. unfold wpos in Heq. simpl in *. simplify_eq. lia.
Qed.

(** Two assignments to different cells commute, also when one raises. *)
Lemma board_setitem_comm (r c r' c' : nat) (v v' : string) :
  (r, c) <> (r', c') ->
  (board_setitem r c v ;; board_setitem r' c' v')
  ≡ (board_setitem r' c' v' ;; board_setitem r c v).
Proof.
  intros Hne g. unfold bind, board_setitem.
  destruct (decide (r = r')) as [<-|Hr].
  - destruct (g !! r) as [row|] eqn:Hrow; [|done].
    assert (r < length g) by (eapply lookup_lt_Some; eauto).
    destruct (decide (c < length row)), (decide (c' < length row)); simpl;
      rewrite ?list_lookup_insert_eq by done; simpl; rewrite ?length_insert;
      repeat case_decide; try done; try lia.
    rewrite !list_insert_insert_eq, list_insert_insert_ne by congruence. done.
  - destruct (g !! r) as [row|] eqn:Hrow, (g !! r') as [row'|] eqn:Hrow';
      repeat (case_decide; simpl; rewrite ?list_lookup_insert_ne by done;
              rewrite ?Hrow, ?Hrow'); try done.
    by rewrite list_insert_insert_ne.
Qed.

(** The order of writes to pairwise distinct cells does not matter. *)
Lemma exec_writes_perm (ws ws' : list write) :
  NoDup (map wpos ws) -> Permutation ws ws' -> exec_writes ws ≡ exec_writes ws'.
Proof.
  intros Hnd Hp. induction Hp as [|w ws ws' Hp IH|w1 w2 ws|ws ws' ws'' Hp1 IH1 Hp2 IH2].
  - reflexivity.
  - simpl in Hnd. apply NoDup_cons in Hnd as [_ Hnd].
    rewrite !exec_writes_cons. apply bind_proper; [done|]. intros []. by apply IH.
  - simpl in Hnd. apply NoDup_cons in Hnd as [Hw2 _]. simpl in Hw2.
    rewrite !exec_writes_cons, <- !bind_assoc.
    apply bind_proper; [|intros []; done].
    apply board_setitem_comm. intros Heq. apply Hw2. unfold wpos in *. rewrite Heq. apply list_elem_of_here.
  - rewrite IH1 by done. apply IH2.
    by rewrite <- (Permutation_map wpos Hp1).
Qed.

(** ** The contract of [populate_board] and [__init__] against it *)

(** What a subclass's [populate_board] promises to [__init__]: it is a
    sequence of assignments [self.board[r][c] = v], all within the
    dimensions the subclass passes to [super().__init__]. *)
Class Populator (cls : board_class) (rows columns : nat) := {
  pop_writes : list write;
  pop_exec : populate_board cls ≡ exec_writes pop_writes;
  pop_in_bounds : Forall (in_bounds rows columns) pop_writes
}.
Arguments pop_writes cls {rows columns} {_}.

(** [__init__] of a class whose [populate_board] runs the writes [ws]:
    when they all fit, it returns a board of the requested shape whose
    cells hold the last value written there and [None] elsewhere. *)
Lemma init_writes_ok (cls : board_class) (ws : list write) (rows columns : nat) :
  populate_board cls ≡ exec_writes ws -> Forall (in_bounds rows columns) ws ->
  exists g, AbstractBoard_init cls rows columns = Ok g /\ shape rows columns g /\
    forall r c, cell_at g r c =
      if decide (r < rows /\ c < columns) then Some (last_write ws r c) else None.
Proof.
  intros Hexec Hb. unfold AbstractBoard_init. rewrite Hexec.
  destruct (exec_writes_ok rows columns ws _ (new_board_shape rows columns) Hb)
    as (g & -> & Hs & Hcell).
  exists g. split; [done|]. split; [done|]. intros r c.
  rewrite Hcell, new_board_cell. case_decide as Hin.
  - by destruct (last_write ws r c).
  - by rewrite (last_write_out rows columns).
Qed.

(** When one of the writes does not fit, [__init__] raises [IndexError]. *)
Lemma init_writes_oob (cls : board_class) (ws : list write) (rows columns : nat) :
  populate_board cls ≡ exec_writes ws -> ~ Forall (in_bounds rows columns) ws ->
  AbstractBoard_init cls rows columns = Raise IndexError.
Proof.
  intros Hexec Hb. unfold AbstractBoard_init. rewrite Hexec.
  rewrite (exec_writes_oob rows columns); [done | apply new_board_shape | done].
Qed.

(** C2: [__init__] is correct against the [Populator] contract: for any
    class meeting it, construction succeeds, the board keeps the
    dimensions given to [__init__], and every cell holds the last value
    [populate_board] wrote there ([None] if none). *)
Theorem init_spec (cls : board_class) (rows columns : nat) `{!Populator cls rows columns} :
  exists g, AbstractBoard_init cls rows columns = Ok g /\ shape rows columns g /\
    forall r c, cell_at g r c =
      if decide (r < rows /\ c < columns)
      then Some (last_write (pop_writes cls) r c) else None.
Proof. apply init_writes_ok; [apply pop_exec | apply pop_in_bounds]. Qed.

(** C16: the base class cannot be instantiated: [AbstractBoard(rows,
    columns)] allocates the board and then raises [NotImplementedError]
    from its [populate_board], whatever the dimensions. *)
Theorem AbstractBoard_not_implemented (rows columns : nat) :
  AbstractBoard_init AbstractBoard rows columns = Raise NotImplementedError.
Proof. reflexivity. Qed.

End Board.
