(* ===== verification/Checkers.v ===== *)
(** * The checkers board (gameboard1.py, lines 197-208)

    [CheckersBoard.__init__] calls [super().__init__(10, 10)];
    [populate_board] runs, for [x] in [range(0, 9, 2)] and [row] in
    [range(4)], the two assignments of a black draught at
    [(row, x + (row + 1) % 2)] and a white draught six rows below.

    [CheckersBoard_populate_board] is that method, loops and all;
    [checkers_writes] is the list of its assignments in execution order,
    and [checkers_populate_exec] shows the method runs exactly them.  The
    spec's layout is [checkers_layout]; the theorems show the board built
    by [CheckersBoard_init] has it (a refinement of the spec by the code),
    that every piece stands on a square of odd parity, and that the method
    fits a board exactly when it has at least ten rows and ten columns. *)

From Stdlib Require Import String Lia ZifyNat.
From stdpp Require Import base list decidable strings.
From S2P Require Import Prelude Pieces Board.

Module Checkers.
Import Pieces Board.

(** ** The class *)

Definition CheckersBoard_populate_board : PyM grid unit :=
  xs <- py_range3 0 9 2 ;;
  for_ xs (fun x =>
    for_ (py_range 4) (fun row =>
      let column := x + (row + 1) mod 2 in
      board_setitem row column BlackDraught ;;
      board_setitem (row + 6) column WhiteDraught)).

Definition CheckersBoard : board_class :=
  {| populate_board := CheckersBoard_populate_board |}.

(** [CheckersBoard()]. *)
Definition CheckersBoard_init : outcome grid := AbstractBoard_init CheckersBoard 10 10.

(** The assignments the method performs, in order. *)
Definition checkers_writes : list write :=
  flat_map (fun x =>
    flat_map (fun row =>
      let column := x + (row + 1) mod 2 in
      [(row, column, BlackDraught); (row + 6, column, WhiteDraught)])
    (py_range 4))
  (range_step 0 9 2).

(** The layout of the spec (section 8): black men on the odd squares of
    rows 0-3, white men on the odd squares of rows 6-9. *)
Definition checkers_layout (r c : nat) : cell :=
  if decide ((r + c) mod 2 = 1) then
    if decide (r < 4) then Some BlackDraught
    else if decide (6 <= r) then Some WhiteDraught else None
  else None.

(** ** The method is its list of writes *)

Lemma checkers_populate_exec :
  CheckersBoard_populate_board ≡ exec_writes checkers_writes.
Proof.
  intros g. unfold CheckersBoard_populate_board, bind at 1.
  rewrite py_range3_ok by lia. revert g. fold_pym_equiv.
  unfold exec_writes, checkers_writes. rewrite <- for_flat_map.
  apply for_proper. intros x. rewrite <- for_flat_map.
  apply for_proper. intros row. simpl.
  apply bind_proper; [done|]. intros []. symmetry. apply bind_ret_unit.
Qed.

Lemma elem_of_checkers_x (x : nat) : x ∈ range_step 0 9 2 <-> x < 9 /\ x mod 2 = 0.
Proof. rewrite elem_of_range_step by lia. rewrite Nat.sub_0_r. lia. Qed.

(** Where the method writes what. *)
Lemma checkers_writes_In (r c : nat) (v : string) :
  In (r, c, v) checkers_writes <->
  r < 10 /\ c < 10 /\ checkers_layout r c = Some v.
Proof.
  unfold checkers_writes, checkers_layout. rewrite in_flat_map.
  setoid_rewrite in_flat_map. setoid_rewrite <- list_elem_of_In.
  setoid_rewrite elem_of_checkers_x. setoid_rewrite elem_of_py_range.
  split.
  - intros (x & [Hx Hx2] & row & Hrow & Hin).
    rewrite !elem_of_cons, elem_of_nil in Hin.
    destruct Hin as [Hin|[Hin|[]]]; simplify_eq;
      repeat case_decide; split_and!; try done; lia.
  - intros (Hr & Hc & Hl). repeat case_decide; simplify_eq; try done.
    + exists (c - (r + 1) mod 2). split; [lia|]. exists r. split; [lia|].
      apply elem_of_cons. left. f_equal. f_equal. lia.
    + exists (c - (r + 1) mod 2). split; [lia|]. exists (r - 6). split; [lia|].
      rewrite !elem_of_cons. right. left. f_equal. f_equal; lia.
Qed.

Lemma checkers_writes_NoDup : NoDup (map wpos checkers_writes).
Proof. apply (bool_decide_unpack (NoDup (map wpos checkers_writes))). vm_compute. reflexivity. Qed.

Lemma checkers_last_write (r c : nat) :
  r < 10 -> c < 10 -> last_write checkers_writes r c = checkers_layout r c.
Proof.
  intros Hr Hc. destruct (checkers_layout r c) as [v|] eqn:Hl.
  - apply last_write_NoDup; [apply checkers_writes_NoDup|].
    by apply checkers_writes_In.
  - apply last_write_None, Forall_forall. intros [[r' c'] v] Hin Heq.
    unfold wpos in Heq. simpl in Heq. simplify_eq.
    apply list_elem_of_In, checkers_writes_In in Hin. naive_solver.
Qed.

Lemma checkers_writes_in_bounds (rows columns : nat) :
  Forall (in_bounds rows columns) checkers_writes <-> 10 <= rows /\ 10 <= columns.
Proof.
  rewrite Forall_forall. split.
  - intros Hb.
    assert (in_bounds rows columns (9, 8, WhiteDraught)) as [Hr _].
    { apply Hb, list_elem_of_In, checkers_writes_In. split_and!; [lia | lia | reflexivity]. }
    assert (in_bounds rows columns (0, 9, BlackDraught)) as [_ Hc].
    { apply Hb, list_elem_of_In, checkers_writes_In. split_and!; [lia | lia | reflexivity]. }
    simpl in *. lia.
  - intros [Hr Hc] [[r c] v] Hin. apply list_elem_of_In, checkers_writes_In in Hin.
    unfold in_bounds. simpl. lia.
Qed.

(** ** The board [CheckersBoard()] builds *)

(** C1: [CheckersBoard()] succeeds and builds a 10 x 10 board whose cells
    are exactly the spec's layout: a black draught on every square of odd
    parity in rows 0-3, a white draught on every such square in rows 6-9,
    and [None] everywhere else. *)
Theorem CheckersBoard_layout :
  exists g, CheckersBoard_init = Ok g /\ shape 10 10 g /\
    forall r c, cell_at g r c =
      if decide (r < 10 /\ c < 10) then Some (checkers_layout r c) else None.
Proof.
  destruct (init_writes_ok CheckersBoard _ 10 10 checkers_populate_exec) as (g & Hinit & Hs & Hcell);
    [apply (checkers_writes_in_bounds 10 10); lia|].
  exists g. split; [done|]. split; [done|]. intros r c.
  rewrite Hcell. case_decide; [|done]. f_equal. apply checkers_last_write; lia.
Qed.

(** C6: the population loop fits a board of [rows] x [columns] exactly when
    it has at least ten rows and ten columns; on a smaller board
    [__init__] raises [IndexError] (the black man at (0, 9) needs ten
    columns, the white man at (9, 8) ten rows). *)
Theorem CheckersBoard_populate_fits (rows columns : nat) :
  AbstractBoard_init CheckersBoard rows columns = Raise IndexError <->
  ~ (10 <= rows /\ 10 <= columns).
Proof.
  rewrite <- checkers_writes_in_bounds. split.
  - intros Hraise Hb.
    destruct (init_writes_ok CheckersBoard _ _ _ checkers_populate_exec Hb)
      as (g & Hok & _). congruence.
  - apply init_writes_oob, checkers_populate_exec.
Qed.

(** C10: the order of the assignments does not matter: running the same
    assignments in any other order has the same effect as the method, on
    every board, including which exception it raises. *)
Theorem CheckersBoard_populate_order (ws : list write) :
  Permutation checkers_writes ws -> exec_writes ws ≡ CheckersBoard_populate_board.
Proof.
  intros Hp. rewrite checkers_populate_exec. symmetry.
  apply exec_writes_perm; [apply checkers_writes_NoDup | done].
Qed.

Lemma CheckersBoard_populate_order_witness :
  Permutation checkers_writes (rev checkers_writes) /\
  exec_writes (rev checkers_writes) ≡ CheckersBoard_populate_board.
Proof.
  split; [apply Permutation_rev|].
  apply CheckersBoard_populate_order, Permutation_rev.
Defined.

(** ** The class meets the contract of [populate_board] *)

#[export] Instance CheckersBoard_populator : Populator CheckersBoard 10 10.
Proof.
  refine {| pop_writes := checkers_writes |};
    [exact checkers_populate_exec | apply checkers_writes_in_bounds; lia].
Defined.

Lemma init_spec_witness :
  exists g, AbstractBoard_init CheckersBoard 10 10 = Ok g /\ shape 10 10 g /\
    forall r c, cell_at g r c =
      if decide (r < 10 /\ c < 10)
      then Some (last_write (pop_writes CheckersBoard) r c) else None.
Proof. exact (init_spec CheckersBoard 10 10). Defined.

End Checkers.
