(* ===== verification/Chess.v ===== *)
(** * The chess board (gameboard1.py, lines 210-239)

    [ChessBoard.__init__] calls [super().__init__(8, 8)]; [populate_board]
    assigns the black back rank on row 0 and the white one on row 7,
    sixteen statements in all, then for [column] in [range(8)] a black
    pawn on row 1 and a white pawn on row 6.

    [ChessBoard_populate_board] is the method statement by statement,
    [chess_writes] its assignments in order, and [chess_populate_exec]
    shows the method runs exactly them.  The spec's layout is
    [chess_layout], written with the glyph table of [Pieces]; the theorems
    show [ChessBoard()] builds it and that the statements fit exactly the
    boards of at least eight rows and columns. *)

From Stdlib Require Import String Lia.
From stdpp Require Import base list decidable strings.
From S2P Require Import Prelude Pieces Board.

Module Chess.
Import Pieces Board.

(** ** The class *)

Definition ChessBoard_populate_board : PyM grid unit :=
  (* black *)
  board_setitem 0 0 BlackChessRook ;;
  board_setitem 0 1 BlackChessKnight ;;
  board_setitem 0 2 BlackChessBishop ;;
  board_setitem 0 3 BlackChessQueen ;;
  board_setitem 0 4 BlackChessKing ;;
  board_setitem 0 5 BlackChessBishop ;;
  board_setitem 0 6 BlackChessKnight ;;
  board_setitem 0 7 BlackChessRook ;;
  (* white *)
  board_setitem 7 0 WhiteChessRook ;;
  board_setitem 7 1 WhiteChessKnight ;;
  board_setitem 7 2 WhiteChessBishop ;;
  board_setitem 7 3 WhiteChessQueen ;;
  board_setitem 7 4 WhiteChessKing ;;
  board_setitem 7 5 WhiteChessBishop ;;
  board_setitem 7 6 WhiteChessKnight ;;
  board_setitem 7 7 WhiteChessRook ;;
  for_ (py_range 8) (fun column =>
    board_setitem 1 column BlackChessPawn ;;
    board_setitem 6 column WhiteChessPawn).

Definition ChessBoard : board_class :=
  {| populate_board := ChessBoard_populate_board |}.

(** [ChessBoard()]. *)
Definition ChessBoard_init : outcome grid := AbstractBoard_init ChessBoard 8 8.

(** The assignments the method performs, in order. *)
Definition chess_writes : list write :=
  [(0, 0, BlackChessRook); (0, 1, BlackChessKnight); (0, 2, BlackChessBishop);
   (0, 3, BlackChessQueen); (0, 4, BlackChessKing); (0, 5, BlackChessBishop);
   (0, 6, BlackChessKnight); (0, 7, BlackChessRook);
   (7, 0, WhiteChessRook); (7, 1, WhiteChessKnight); (7, 2, WhiteChessBishop);
   (7, 3, WhiteChessQueen); (7, 4, WhiteChessKing); (7, 5, WhiteChessBishop);
   (7, 6, WhiteChessKnight); (7, 7, WhiteChessRook)] ++
  flat_map (fun column => [(1, column, BlackChessPawn); (6, column, WhiteChessPawn)])
    (py_range 8).

(** ** The layout of the spec (section 4.2) *)

(** The back rank: rook, knight, bishop, queen, king, bishop, knight, rook. *)
Definition back_rank (c : nat) : kind :=
  match c with
  | 0 => Rook | 1 => Knight | 2 => Bishop | 3 => Queen
  | 4 => King | 5 => Bishop | 6 => Knight | _ => Rook
  end.

Definition chess_layout (r c : nat) : cell :=
  match r with
  | 0 => Some (glyph Black (back_rank c))
  | 1 => Some (glyph Black Pawn)
  | 6 => Some (glyph White Pawn)
  | 7 => Some (glyph White (back_rank c))
  | _ => None
  end.

(** ** The method is its list of writes *)

Lemma chess_populate_exec : ChessBoard_populate_board ≡ exec_writes chess_writes.
Proof.
  unfold ChessBoard_populate_board, chess_writes, exec_writes.
  cbn [app for_].
  do 16 (apply bind_proper; [reflexivity|]; intros []).
  rewrite <- for_flat_map. apply for_proper. intros column. simpl.
  apply bind_proper; [done|]. intros []. symmetry. apply bind_ret_unit.
Qed.

Lemma chess_writes_small : Forall (in_bounds 8 8) chess_writes.
Proof. apply (bool_decide_unpack (Forall (in_bounds 8 8) chess_writes)). vm_compute. reflexivity. Qed.

Lemma chess_writes_in_bounds (rows columns : nat) :
  Forall (in_bounds rows columns) chess_writes <-> 8 <= rows /\ 8 <= columns.
Proof.
  split.
  - intros Hb. rewrite Forall_forall in Hb.
    destruct (Hb (7, 7, WhiteChessRook)) as [Hr Hc];
      [apply list_elem_of_In; simpl; tauto|].
    simpl in *. lia.
  - intros [Hr Hc]. eapply Forall_impl; [apply chess_writes_small|].
    intros w [H1 H2]. split; lia.
Qed.

(** The sixty-four cells, checked cell by cell. *)
Lemma chess_last_write (r c : nat) :
  r < 8 -> c < 8 -> last_write chess_writes r c = chess_layout r c.
Proof.
  assert (Hall : Forall (fun r => Forall (fun c =>
            last_write chess_writes r c = chess_layout r c) (py_range 8)) (py_range 8)).
  { apply (bool_decide_unpack (Forall _ (py_range 8))). vm_compute. reflexivity. }
  intros Hr Hc. rewrite Forall_forall in Hall.
  specialize (Hall r (proj2 (elem_of_py_range 8 r) Hr)).
  rewrite Forall_forall in Hall. apply Hall, elem_of_py_range, Hc.
Qed.

(** ** The board [ChessBoard()] builds *)

(** C3: [ChessBoard()] succeeds and builds an 8 x 8 board that is the
    spec's layout: the black back rank (rook, knight, bishop, queen, king,
    bishop, knight, rook) on row 0, black pawns on row 1, white pawns on
    row 6, the white back rank on row 7, and [None] everywhere else. *)
Theorem ChessBoard_layout :
  exists g, ChessBoard_init = Ok g /\ shape 8 8 g /\
    forall r c, cell_at g r c =
      if decide (r < 8 /\ c < 8) then Some (chess_layout r c) else None.
Proof.
  destruct (init_writes_ok ChessBoard _ 8 8 chess_populate_exec) as (g & Hinit & Hs & Hcell);
    [apply (chess_writes_in_bounds 8 8); lia|].
  exists g. split; [done|]. split; [done|]. intros r c.
  rewrite Hcell. case_decide; [|done]. f_equal. apply chess_last_write; lia.
Qed.

(** C11: the population statements fit a board of [rows] x [columns]
    exactly when it has at least eight rows and eight columns; otherwise
    [__init__] raises [IndexError]. *)
Theorem ChessBoard_populate_fits (rows columns : nat) :
  AbstractBoard_init ChessBoard rows columns = Raise IndexError <->
  ~ (8 <= rows /\ 8 <= columns).
Proof.
  rewrite <- chess_writes_in_bounds. split.
  - intros Hraise Hb.
    destruct (init_writes_ok ChessBoard _ _ _ chess_populate_exec Hb)
      as (g & Hok & _). congruence.
  - apply init_writes_oob, chess_populate_exec.
Qed.

(** ** The class meets the contract of [populate_board] *)

#[export] Instance ChessBoard_populator : Populator ChessBoard 8 8.
Proof.
  refine {| pop_writes := chess_writes |};
    [exact chess_populate_exec | exact chess_writes_small].
Defined.

End Chess.
