(* ===== verification/Render.v ===== *)
(** * Rendering (gameboard1.py, lines 6-16 and 187-194)

    [console(char, background)] is defined at import time by platform: on
    Windows ([sys.platform.startswith('win')]) it returns [char or ""];
    elsewhere it returns ["\x1B{}m{}\x1B[0m".format(43 if background ==
    BLACK else 47, char or "")].  [AbstractBoard.__str__] enumerates the
    rows and cells, renders each cell with the background [BLACK] when
    [(y + x) % 2] is non-zero and [WHITE] otherwise, appends ["\n"] after
    each row and joins the squares.

    [console] and [board_str] are these functions, parameterised by the
    string [sys.platform].  The theorems: the background alternates like a
    checkerboard; the coloured output is a sequence of tokens ([token]) that
    the decoder [decode] reads back exactly, so it loses no glyph, colour
    or row break; deleting the escape sequences from the coloured output
    gives the Windows output; every man of the checkers board is drawn on
    the [BLACK] background; and the opening escape of a square lacks the
    "[" of an ANSI control sequence. *)

From Stdlib Require Import String Ascii Lia ZifyNat.
From stdpp Require Import base list decidable strings.
From S2P Require Import Prelude Pieces Board Checkers.

Module Render.
Import Board Checkers.

Local Open Scope string_scope.

(** ** Definitions of the program *)

(** [BLACK, WHITE = ('BLACK', 'WHITE')]. *)
Definition BLACK : string := "BLACK".
Definition WHITE : string := "WHITE".

Definition ESC : string := String "027" EmptyString.
Definition NL : string := String "010" EmptyString.

(** [sys.platform.startswith('win')]. *)
Definition is_windows (platform : string) : bool := String.prefix "win" platform.

(** [char or ""] for a cell: [None] and [""] are falsy and give [""]. *)
Definition or_empty (char : cell) : string :=
  match char with Some s => s | None => "" end.

(** [43 if background == BLACK else 47], formatted. *)
Definition bg_code (background : string) : string :=
  if String.eqb background BLACK then "43" else "47".

Definition console (platform : string) (char : cell) (background : string) : string :=
  if is_windows platform then or_empty char
  else ESC ++ bg_code background ++ "m" ++ or_empty char ++ ESC ++ "[0m".

(** [BLACK if (y + x) % 2 else WHITE]. *)
Definition background (y x : nat) : string :=
  if decide ((y + x) mod 2 = 0) then WHITE else BLACK.

(** The squares one row appends: its cells, then ['\n']. *)
Definition row_squares (platform : string) (y : nat) (row : list cell) : list string :=
  (imap (fun x piece => console platform piece (background y x)) row ++ [NL])%list.

(** The list [squares] at the end of the loops. *)
Definition squares (platform : string) (g : grid) : list string :=
  concat (imap (row_squares platform) g).

(** [AbstractBoard.__str__]: [return "".join(squares)]. *)
Definition board_str (platform : string) (g : grid) : string :=
  String.concat "" (squares platform g).

(** ** The token view of a rendering *)

(** What a rendering shows: a square with a colour code and a glyph, or a
    row break. *)
Inductive token : Type :=
  | Square (code glyph : string)
  | Newline.

#[export] Instance token_eq_dec : EqDecision token.
Proof. solve_decision. Defined.

Definition board_tokens (g : grid) : list token :=
  concat (imap (fun y row =>
    (imap (fun x piece => Square (bg_code (background y x)) (or_empty piece)) row
     ++ [Newline])%list) g).

(** How a token is printed with colours, and without. *)
Definition show_token (t : token) : string :=
  match t with
  | Square code glyph => ESC ++ code ++ "m" ++ glyph ++ ESC ++ "[0m"
  | Newline => NL
  end.

Definition plain_token (t : token) : string :=
  match t with
  | Square _ glyph => glyph
  | Newline => NL
  end.

Definition unlex (show : token -> string) (ts : list token) : string :=
  String.concat "" (map show ts).

(** ** Decoding the coloured output *)

Definition is_esc (ch : ascii) : bool := Ascii.eqb ch "027".
Definition is_nl (ch : ascii) : bool := Ascii.eqb ch "010".

(** Split at the first escape character. *)
Fixpoint span_glyph (s : string) : string * string :=
  match s with
  | EmptyString => (EmptyString, EmptyString)
  | String ch s' =>
      if is_esc ch then (EmptyString, s)
      else let (g, rest) := span_glyph s' in (String ch g, rest)
  end.

(** Remove the prefix [p], if [s] starts with it. *)
Fixpoint strip_prefix (p s : string) : option string :=
  match p, s with
  | EmptyString, _ => Some s
  | String a p', String b s' => if Ascii.eqb a b then strip_prefix p' s' else None
  | String _ _, EmptyString => None
  end.

(** Read tokens; [fuel] bounds the number of tokens. *)
Fixpoint lex (fuel : nat) (s : string) : option (list token) :=
  match fuel with
  | O => None
  | S f =>
      match s with
      | EmptyString => Some []
      | String ch s' =>
          if is_nl ch then (fun ts => Newline :: ts) <$> lex f s'
          else if is_esc ch then
            match s' with
            | String d1 (String d2 (String m s'')) =>
                if Ascii.eqb m "m"%char then
                  let (g, rest) := span_glyph s'' in
                  rest' ← strip_prefix (ESC ++ "[0m") rest;
                  (fun ts => Square (String d1 (String d2 EmptyString)) g :: ts)
                    <$> lex f rest'
                else None
            | _ => None
            end
          else None
      end
  end.

(** A decoder that always has enough fuel: each token takes a byte. *)
Definition decode (s : string) : option (list token) := lex (S (String.length s)) s.

(** Removing the escape sequences ([ESC] up to the next [m]). *)
Fixpoint strip_sgr (in_esc : bool) (s : string) : string :=
  match s with
  | EmptyString => EmptyString
  | String ch s' =>
      if in_esc then (if Ascii.eqb ch "m" then strip_sgr false s' else strip_sgr true s')
      else if is_esc ch then strip_sgr true s'
      else String ch (strip_sgr false s')
  end.

Fixpoint no_esc (s : string) : bool :=
  match s with
  | EmptyString => true
  | String ch s' => negb (is_esc ch) && no_esc s'
  end.

(** The tokens a board renders to: codes 43 or 47, glyphs with no escape. *)
Definition tok_ok (t : token) : bool :=
  match t with
  | Square code glyph => (String.eqb code "43" || String.eqb code "47") && no_esc glyph
  | Newline => true
  end.

(** Boards whose strings contain no escape character. *)
Definition grid_clean (g : grid) : Prop :=
  Forall (Forall (fun c => no_esc (or_empty c) = true)) g.

(** ** From [__str__] to tokens *)

Lemma squares_tokens (platform : string) (g : grid) :
  squares platform g =
  map (if is_windows platform then plain_token else show_token) (board_tokens g).
Proof.
  unfold squares, board_tokens. rewrite concat_map, map_imap. f_equal.
  apply imap_ext. intros y row _. unfold row_squares. rewrite map_app, map_imap.
  unfold console. destruct (is_windows platform); reflexivity.
Qed.

Lemma board_str_unlex (platform : string) (g : grid) :
  board_str platform g =
  unlex (if is_windows platform then plain_token else show_token) (board_tokens g).
Proof. unfold board_str, unlex. by rewrite squares_tokens. Qed.

Lemma bg_code_cases (b : string) : bg_code b = "43" \/ bg_code b = "47".
Proof. unfold bg_code. destruct (String.eqb b BLACK); auto. Qed.

Lemma board_tokens_ok (g : grid) : grid_clean g -> Forall (fun t => tok_ok t = true) (board_tokens g).
Proof.
  intros Hg. apply Forall_concat, Forall_imap. intros y row Hrow.
  apply Forall_app. split; [|by constructor].
  apply Forall_imap. intros x p Hp. simpl.
  assert (no_esc (or_empty p) = true) as ->.
  { eapply Forall_lookup_1 in Hg; [|exact Hrow]. by eapply Forall_lookup_1 in Hg. }
  by destruct (bg_code_cases (background y x)) as [-> | ->].
Qed.

(** ** The decoder reads the coloured output back *)

Lemma span_glyph_app (g r : string) :
  no_esc g = true -> span_glyph (g ++ String "027" r) = (g, String "027" r).
Proof.
  induction g as [|ch g IH]; simpl; [done|].
  intros [Hch Hg]%andb_prop. apply negb_true_iff in Hch.
  rewrite Hch, IH by done. done.
Qed.

Lemma strip_prefix_app (p s : string) : strip_prefix p (p ++ s) = Some s.
Proof. induction p as [|a p IH]; simpl; [done|]. by rewrite Ascii.eqb_refl. Qed.

(** One token: the decoder reads exactly what [show_token] printed. *)
Lemma lex_show (f : nat) (t : token) (s : string) :
  tok_ok t = true ->
  lex (S f) (show_token t ++ s) = (fun ts => t :: ts) <$> lex f s.
Proof.
  destruct t as [code glyph|]; [|done].
  simpl. intros [Hcode Hg]%andb_prop.
  assert (Hsq : forall d1 d2, lex (S f) (String "027" (String d1 (String d2 (String "m"
            (glyph ++ String "027" ("[0m" ++ s)))))) =
          (fun ts => Square (String d1 (String d2 "")) glyph :: ts) <$> lex f s).
  { intros d1 d2. cbn [lex]. simpl. rewrite span_glyph_app by done. done. }
  apply orb_prop in Hcode as [->%String.eqb_eq | ->%String.eqb_eq];
    autorewrite with pyrw; apply Hsq.
Qed.

Lemma lex_unlex (ts : list token) (f : nat) :
  Forall (fun t => tok_ok t = true) ts -> length ts < f ->
  lex f (unlex show_token ts) = Some ts.
Proof.
  revert f. induction ts as [|t ts IH]; intros [|f] Hok Hlen; try lia; [done|].
  apply Forall_cons in Hok as [Ht Hok].
  unfold unlex. rewrite map_cons, string_concat_cons, lex_show by done.
  fold (unlex show_token ts). rewrite IH by (done || simpl in *; lia). done.
Qed.

Lemma show_token_length (t : token) : 1 <= String.length (show_token t).
Proof. destruct t; simpl; lia. Qed.

Lemma unlex_length (ts : list token) : length ts <= String.length (unlex show_token ts).
Proof.
  induction ts as [|t ts IH]; [simpl; lia|].
  unfold unlex. rewrite map_cons, string_concat_cons, string_length_app.
  fold (unlex show_token ts). pose proof (show_token_length t). simpl. lia.
Qed.

Lemma decode_unlex (ts : list token) :
  Forall (fun t => tok_ok t = true) ts -> decode (unlex show_token ts) = Some ts.
Proof.
  intros Hok. unfold decode. apply lex_unlex; [done|].
  pose proof (unlex_length ts). lia.
Qed.

(** ** Stripping the colours *)

Lemma strip_sgr_clean (g s : string) :
  no_esc g = true -> strip_sgr false (g ++ s) = (g ++ strip_sgr false s)%string.
Proof.
  induction g as [|ch g IH]; simpl; [done|].
  intros [Hch Hg]%andb_prop. apply negb_true_iff in Hch. rewrite Hch, IH by done. done.
Qed.

Lemma strip_show (t : token) (s : string) :
  tok_ok t = true ->
  strip_sgr false (show_token t ++ s) = (plain_token t ++ strip_sgr false s)%string.
Proof.
  destruct t as [code glyph|]; [|done].
  cbn [tok_ok]. intros [Hcode Hg]%andb_prop.
  apply orb_prop in Hcode as [->%String.eqb_eq | ->%String.eqb_eq];
    cbn [show_token plain_token]; unfold ESC; autorewrite with pyrw; simpl;
    rewrite strip_sgr_clean by done; reflexivity.
Qed.

Lemma strip_unlex (ts : list token) :
  Forall (fun t => tok_ok t = true) ts ->
  strip_sgr false (unlex show_token ts) = unlex plain_token ts.
Proof.
  induction ts as [|t ts IH]; [done|]. intros [Ht Hok]%Forall_cons.
  unfold unlex. rewrite !map_cons, !string_concat_cons, strip_show by done.
  fold (unlex show_token ts) (unlex plain_token ts). by rewrite IH.
Qed.

Lemma no_esc_app (s1 s2 : string) :
  no_esc (s1 ++ s2) = no_esc s1 && no_esc s2.
Proof. induction s1 as [|ch s1 IH]; simpl; [done|]. by rewrite IH, andb_assoc. Qed.

Lemma no_esc_unlex_plain (ts : list token) :
  Forall (fun t => tok_ok t = true) ts -> no_esc (unlex plain_token ts) = true.
Proof.
  induction ts as [|t ts IH]; [done|]. intros [Ht Hok]%Forall_cons.
  unfold unlex. rewrite map_cons, string_concat_cons, no_esc_app.
  fold (unlex plain_token ts). rewrite IH by done.
  destruct t; simpl in *; [|done]. apply andb_prop in Ht as [_ ->]. done.
Qed.

(** ** Properties of the rendering *)

(** C14: the background alternates like a checkerboard: two cells next to
    each other in a row, or in a column, get different backgrounds. *)
Theorem background_alternates (y x : nat) :
  background y x <> background y (S x) /\ background y x <> background (S y) x.
Proof.
  unfold background, BLACK, WHITE.
  split; repeat case_decide; try discriminate; exfalso; lia.
Qed.

(** C4: the coloured output loses nothing: on a platform other than
    Windows, decoding [str(board)] gives back, row by row, every cell's
    glyph with its background code and the row breaks. *)
Theorem decode_board_str (platform : string) (g : grid) :
  is_windows platform = false -> grid_clean g ->
  decode (board_str platform g) = Some (board_tokens g).
Proof.
  intros Hw Hg. rewrite board_str_unlex, Hw.
  apply decode_unlex, board_tokens_ok, Hg.
Qed.

Lemma decode_board_str_witness :
  is_windows "linux" = false /\
  grid_clean [[Some "●"; None]; [None; Some "(BK)"]] /\
  decode (board_str "linux" [[Some "●"; None]; [None; Some "(BK)"]]) =
    Some (board_tokens [[Some "●"; None]; [None; Some "(BK)"]]).
Proof.
  assert (Hw : is_windows "linux" = false) by reflexivity.
  assert (Hg : grid_clean [[Some "●"; None]; [None; Some "(BK)"]]) by
    (repeat constructor).
  split; [exact Hw|]. split; [exact Hg|].
  exact (decode_board_str "linux" _ Hw Hg).
Defined.

(** C9: the Windows output is the coloured output with its escape
    sequences removed, and it contains no escape character. *)
Theorem strip_board_str (posix win : string) (g : grid) :
  is_windows posix = false -> is_windows win = true -> grid_clean g ->
  strip_sgr false (board_str posix g) = board_str win g /\
  no_esc (board_str win g) = true.
Proof.
  intros Hp Hw Hg. rewrite !board_str_unlex, Hp, Hw.
  pose proof (board_tokens_ok g Hg).
  split; [by apply strip_unlex | by apply no_esc_unlex_plain].
Qed.

Lemma strip_board_str_witness :
  is_windows "linux" = false /\ is_windows "win32" = true /\
  grid_clean [[Some "○"; None]] /\
  strip_sgr false (board_str "linux" [[Some "○"; None]]) = board_str "win32" [[Some "○"; None]] /\
  no_esc (board_str "win32" [[Some "○"; None]]) = true.
Proof.
  assert (Hp : is_windows "linux" = false) by reflexivity.
  assert (Hw : is_windows "win32" = true) by reflexivity.
  assert (Hg : grid_clean [[Some "○"; None]]) by (repeat constructor).
  split; [exact Hp|]. split; [exact Hw|]. split; [exact Hg|].
  exact (strip_board_str "linux" "win32" _ Hp Hw Hg).
Defined.

(** ** Rendering of the boards the program builds *)

(** C13: every draught of the checkers board stands on a square rendered
    with the [BLACK] background (code 43), so the men all stand on squares
    of one colour. *)
Theorem checkers_pieces_on_black_squares :
  exists g, CheckersBoard_init = Ok g /\
    forall r c p, cell_at g r c = Some (Some p) -> background r c = BLACK.
Proof.
  destruct (init_writes_ok CheckersBoard _ 10 10 checkers_populate_exec)
    as (g & Hinit & _ & Hcell); [apply checkers_writes_in_bounds; lia|].
  exists g. split; [done|]. intros r c p Hp. rewrite Hcell in Hp.
  case_decide as Hin; [|done]. simplify_eq.
  rewrite checkers_last_write in Hp by lia.
  unfold checkers_layout in Hp. unfold background.
  case_decide; [|done]. rewrite decide_False by lia. done.
Qed.

(** C15: the escape sequence [console] opens a square with is the escape
    character followed by the digits of the code: it lacks the "[" of an
    ANSI control sequence ("\x1B[43m"), which the spec describes. *)
Theorem console_escape_not_csi (platform : string) (char : cell) (bg : string) :
  is_windows platform = false ->
  exists rest, console platform char bg = String "027"%char (String "4"%char rest) /\
    strip_prefix (ESC ++ "[") (console platform char bg) = None.
Proof.
  intros Hw. unfold console. rewrite Hw.
  destruct (bg_code_cases bg) as [-> | ->]; eexists; split; reflexivity.
Qed.

Lemma console_escape_not_csi_witness :
  is_windows "linux" = false /\
  exists rest, console "linux" (Some "●") BLACK = String "027"%char (String "4"%char rest) /\
    strip_prefix (ESC ++ "[") (console "linux" (Some "●") BLACK) = None.
Proof.
  assert (Hw : is_windows "linux" = false) by reflexivity.
  split; [exact Hw|]. exact (console_escape_not_csi "linux" _ _ Hw).
Defined.

End Render.
