(* ===== verification/Main.v ===== *)
(** * The entry point (gameboard1.py, lines 9-12 and 242-259)

    On Windows the module, when imported, replaces [sys.stdout] by an
    [io.StringIO] (line 12).  [main] builds a [CheckersBoard] and prints it,
    builds a [ChessBoard] and prints it, and on Windows then writes
    [sys.stdout.getvalue()] to [gameboard.txt] in the temporary directory
    and prints ["wrote '<path>'"] to the real standard output
    [sys.__stdout__].

    The state is [io]: what [sys.stdout] is bound to (the real stream or a
    [StringIO] with its contents), the text written to the real standard
    output, and the file system as a map from paths to contents (stdpp's
    [gmap]; [open(path, 'w')] overwrites).  Text-mode streams (the file,
    the real standard output) write each newline as [os.linesep], CRLF on
    Windows; the [StringIO] keeps it.  [tempfile.gettempdir()] and
    [os.path.join] are library calls, the section variables [tempdir] and
    [path_join].  [program] runs the import, then [main], from an initial
    state whose [sys.stdout] is the real stream.

    The theorems give the whole run on each platform, and show that the
    file written on Windows is the coloured output a POSIX run prints with
    its escape sequences removed and its newlines written as CRLF.
*)

From Stdlib Require Import String Ascii Lia.
From stdpp Require Import base list decidable strings gmap.
From S2P Require Import Prelude Pieces Board Checkers Chess Render.

Module Main.
Import Pieces Board Checkers Chess Render.

Local Open Scope string_scope.

(** ** The I/O state *)

Inductive stream : Type :=
  | RealStdout
  | StringIO (contents : string).

Record io : Type := mk_io {
  sys_stdout : stream;
  real_out : string;
  files : gmap string string
}.

(** ** Text-mode streams

    A stream opened in text mode with the default [newline=None] (the file
    of [open(filename, 'w')], and [sys.stdout] / [sys.__stdout__] on
    Windows) writes each ["\n"] as [os.linesep]; an [io.StringIO] keeps
    ["\n"] unchanged. *)

Definition CRLF : string := String "013" (String "010" EmptyString).

(** [os.linesep]. *)
Definition os_linesep (platform : string) : string :=
  if is_windows platform then CRLF else NL.

Fixpoint translate_newlines (linesep s : string) : string :=
  match s with
  | EmptyString => EmptyString
  | String ch s' =>
      if is_nl ch then linesep ++ translate_newlines linesep s'
      else String ch (translate_newlines linesep s')
  end.

(** Writing text to [sys.stdout]. *)
Definition write_stdout (platform text : string) : PyM io unit :=
  fun st => Ok (tt,
    match sys_stdout st with
    | RealStdout =>
        mk_io RealStdout (real_out st ++ translate_newlines (os_linesep platform) text)
          (files st)
    | StringIO b => mk_io (StringIO (b ++ text)) (real_out st) (files st)
    end).

(** [print(x)]: [str(x)] and a newline to [sys.stdout]. *)
Definition print (platform text : string) : PyM io unit :=
  write_stdout platform (text ++ NL).

(** [print(x, file=sys.__stdout__)]: the real standard output, in text mode. *)
Definition print_real (platform text : string) : PyM io unit :=
  fun st => Ok (tt, mk_io (sys_stdout st)
    (real_out st ++ translate_newlines (os_linesep platform) (text ++ NL)) (files st)).

(** [sys.stdout.getvalue()]: only a [StringIO] has it. *)
Definition getvalue : PyM io string :=
  fun st => match sys_stdout st with
            | StringIO b => Ok (b, st)
            | RealStdout => Raise AttributeError
            end.

(** [with open(filename, 'w', encoding='utf-8') as file: file.write(data)]:
    the file is replaced by [data] with its newlines translated. *)
Definition write_file (platform filename data : string) : PyM io unit :=
  fun st => Ok (tt, mk_io (sys_stdout st) (real_out st)
    (<[filename := translate_newlines (os_linesep platform) data]> (files st))).

(** A constructor call that may raise, as a statement. *)
Definition lift {A} (o : outcome A) : PyM io A :=
  fun st => match o with Ok a => Ok (a, st) | Raise e => Raise e end.

(** Lines 9-12: on Windows, [sys.stdout = io.StringIO()]. *)
Definition import_console (platform : string) : PyM io unit :=
  fun st => Ok (tt,
    if is_windows platform then mk_io (StringIO "") (real_out st) (files st) else st).

Section Entry.
Context (tempdir : string) (path_join : string -> string -> string).

Definition gameboard_path : string := path_join tempdir "gameboard.txt".

Definition main (platform : string) : PyM io unit :=
  checkers <- lift CheckersBoard_init ;;
  print platform (board_str platform checkers) ;;
  chess <- lift ChessBoard_init ;;
  print platform (board_str platform chess) ;;
  if is_windows platform then
    text <- getvalue ;;
    write_file platform gameboard_path text ;;
    print_real platform ("wrote '" ++ gameboard_path ++ "'")
  else ret tt.

(** Importing the module, then [if __name__ == "__main__": main()]. *)
Definition program (platform : string) (fs : gmap string string) : outcome (unit * io) :=
  (import_console platform ;; main platform) (mk_io RealStdout "" fs).

End Entry.

(** ** Helper lemmas *)

(** Unfold a run of [program] into the steps of [main]. *)
Ltac unfold_run :=
  unfold program, main, bind, import_console, lift, print, write_stdout,
    getvalue, write_file, print_real, os_linesep.

(** Where [os.linesep] is ["\n"], text mode changes nothing. *)
Lemma translate_newlines_NL (s : string) : translate_newlines NL s = s.
Proof.
  induction s as [|ch s IH]; simpl; [done|].
  destruct (is_nl ch) eqn:E; rewrite IH; [|done].
  unfold is_nl in E. apply Ascii.eqb_eq in E as ->. done.
Qed.

Lemma no_esc_translate_CRLF (s : string) :
  no_esc s = true -> no_esc (translate_newlines CRLF s) = true.
Proof.
  induction s as [|ch s IH]; simpl; [done|].
  intros [Hch Hs]%andb_prop. destruct (is_nl ch).
  - rewrite no_esc_app, IH by done. reflexivity.
  - simpl. by rewrite Hch, IH.
Qed.

Lemma CheckersBoard_init_ok : exists g, CheckersBoard_init = Ok g /\ grid_clean g.
Proof.
  eexists. split; [vm_compute; reflexivity|].
  apply (bool_decide_unpack (grid_clean _)). vm_compute. reflexivity.
Qed.

Lemma ChessBoard_init_ok : exists g, ChessBoard_init = Ok g /\ grid_clean g.
Proof.
  eexists. split; [vm_compute; reflexivity|].
  apply (bool_decide_unpack (grid_clean _)). vm_compute. reflexivity.
Qed.

Lemma unlex_app (show : token -> string) (ts1 ts2 : list token) :
  unlex show (ts1 ++ ts2) = unlex show ts1 ++ unlex show ts2.
Proof. unfold unlex. by rewrite map_app, string_concat_app. Qed.

(** What both boards print: two renderings, each followed by a newline. *)
Lemma printed_unlex (platform : string) (gc gch : grid) :
  board_str platform gc ++ NL ++ board_str platform gch ++ NL =
  unlex (if is_windows platform then plain_token else show_token)
    (board_tokens gc ++ [Newline] ++ board_tokens gch ++ [Newline]).
Proof.
  rewrite !unlex_app, !board_str_unlex.
  by destruct (is_windows platform).
Qed.

(** ** The runs *)

(** C8: on a platform other than Windows the program succeeds, prints the
    rendering of the checkers board and then of the chess board, each
    followed by a newline, to the real standard output, and leaves the
    file system as it was. *)
Theorem program_posix (tempdir : string) (path_join : string -> string -> string)
    (platform : string) (fs : gmap string string) :
  is_windows platform = false ->
  exists gc gch, CheckersBoard_init = Ok gc /\ ChessBoard_init = Ok gch /\
    program tempdir path_join platform fs =
    Ok (tt, mk_io RealStdout (board_str platform gc ++ NL ++ board_str platform gch ++ NL) fs).
Proof.
  intros Hw. destruct CheckersBoard_init_ok as (gc & Hc & _).
  destruct ChessBoard_init_ok as (gch & Hch & _).
  exists gc, gch. split; [done|]. split; [done|].
  unfold_run. rewrite Hw, Hc, Hch. simpl. rewrite !translate_newlines_NL.
  by autorewrite with pyrw.
Qed.

Lemma program_posix_witness :
  is_windows "linux" = false /\
  exists gc gch, CheckersBoard_init = Ok gc /\ ChessBoard_init = Ok gch /\
    program "/tmp" (fun d f => d ++ "/" ++ f) "linux" ∅ =
    Ok (tt, mk_io RealStdout (board_str "linux" gc ++ NL ++ board_str "linux" gch ++ NL) ∅).
Proof.
  assert (Hw : is_windows "linux" = false) by reflexivity.
  split; [exact Hw|]. exact (program_posix "/tmp" _ "linux" ∅ Hw).
Defined.

(** C7: on Windows the program succeeds: the two renderings go to the
    [StringIO] that replaced [sys.stdout] with their newlines as they are,
    that text is written to [gameboard.txt] in the temporary directory
    (replacing any file there) with every newline written as CRLF by the
    text-mode file, and the only line on the real standard output is
    ["wrote '<path>'"], also ended by CRLF. *)
Theorem program_windows (tempdir : string) (path_join : string -> string -> string)
    (platform : string) (fs : gmap string string) :
  is_windows platform = true ->
  exists gc gch, CheckersBoard_init = Ok gc /\ ChessBoard_init = Ok gch /\
    let text := board_str platform gc ++ NL ++ board_str platform gch ++ NL in
    program tempdir path_join platform fs =
    Ok (tt, mk_io (StringIO text)
              (translate_newlines CRLF ("wrote '" ++ gameboard_path tempdir path_join ++ "'" ++ NL))
              (<[gameboard_path tempdir path_join := translate_newlines CRLF text]> fs)).
Proof.
  intros Hw. destruct CheckersBoard_init_ok as (gc & Hc & _).
  destruct ChessBoard_init_ok as (gch & Hch & _).
  exists gc, gch. split; [done|]. split; [done|]. simpl.
  unfold_run. rewrite Hw, Hc, Hch. simpl. by autorewrite with pyrw.
Qed.

Lemma program_windows_witness :
  is_windows "win32" = true /\
  exists gc gch, CheckersBoard_init = Ok gc /\ ChessBoard_init = Ok gch /\
    let text := board_str "win32" gc ++ NL ++ board_str "win32" gch ++ NL in
    program "C:\Temp" (fun d f => d ++ "\" ++ f) "win32" ∅ =
    Ok (tt, mk_io (StringIO text)
              (translate_newlines CRLF
                 ("wrote '" ++ gameboard_path "C:\Temp" (fun d f => d ++ "\" ++ f) ++ "'" ++ NL))
              (<[gameboard_path "C:\Temp" (fun d f => d ++ "\" ++ f) :=
                   translate_newlines CRLF text]> ∅)).
Proof.
  assert (Hw : is_windows "win32" = true) by reflexivity.
  split; [exact Hw|]. exact (program_windows "C:\Temp" _ "win32" ∅ Hw).
Defined.

(** C5: the file a Windows run writes is what a run elsewhere prints
    with the escape sequences removed and each newline written as CRLF (the
    text-mode file translates it); it contains no escape character. *)
Theorem gameboard_file_is_plain_output (tempdir : string)
    (path_join : string -> string -> string) (win posix : string) (fs : gmap string string) :
  is_windows win = true -> is_windows posix = false ->
  exists st_w st_p,
    program tempdir path_join win fs = Ok (tt, st_w) /\
    program tempdir path_join posix fs = Ok (tt, st_p) /\
    files st_w !! gameboard_path tempdir path_join =
      Some (translate_newlines CRLF (strip_sgr false (real_out st_p))) /\
    no_esc (translate_newlines CRLF (strip_sgr false (real_out st_p))) = true.
Proof.
  intros Hw Hp.
  destruct CheckersBoard_init_ok as (gc & Hc & Hgc).
  destruct ChessBoard_init_ok as (gch & Hch & Hgch).
  set (ts := (board_tokens gc ++ [Newline] ++ board_tokens gch ++ [Newline])%list).
  assert (Hok : Forall (fun t => tok_ok t = true) ts).
  { apply Forall_app. split; [by apply board_tokens_ok|].
    apply Forall_cons. split; [done|].
    apply Forall_app. split; [by apply board_tokens_ok|]. by repeat constructor. }
  eexists _, _. split; [|split].
  - unfold_run. rewrite Hw, Hc, Hch. simpl. reflexivity.
  - unfold_run. rewrite Hp, Hc, Hch. simpl. reflexivity.
  - simpl. rewrite lookup_insert_eq, !translate_newlines_NL. autorewrite with pyrw.
    rewrite !(string_app_assoc _ NL), <- !string_app_assoc.
    rewrite !printed_unlex, Hw, Hp. fold ts.
    rewrite strip_unlex by done. split; [done|].
    by apply no_esc_translate_CRLF, no_esc_unlex_plain.
Qed.

Lemma gameboard_file_is_plain_output_witness :
  is_windows "win32" = true /\ is_windows "darwin" = false /\
  exists st_w st_p,
    program "/tmp" (fun d f => d ++ "/" ++ f) "win32" ∅ = Ok (tt, st_w) /\
    program "/tmp" (fun d f => d ++ "/" ++ f) "darwin" ∅ = Ok (tt, st_p) /\
    files st_w !! gameboard_path "/tmp" (fun d f => d ++ "/" ++ f) =
      Some (translate_newlines CRLF (strip_sgr false (real_out st_p))) /\
    no_esc (translate_newlines CRLF (strip_sgr false (real_out st_p))) = true.
Proof.
  assert (Hw : is_windows "win32" = true) by reflexivity.
  assert (Hp : is_windows "darwin" = false) by reflexivity.
  split; [exact Hw|]. split; [exact Hp|].
  exact (gameboard_file_is_plain_output "/tmp" _ "win32" "darwin" ∅ Hw Hp).
Defined.

End Main.
